(** * batch/batch/database.py: statement building and table lifecycle

    A shallow embedding of the [Database] and [Table] classes of
    [batch/batch/database.py] and of [make_where_statement], followed by
    the properties of the generated SQL, of the retry loop of
    [create_temporary_table] and of what each operation reads from the
    driver's reply.

    Python dicts are association lists in iteration order; the MySQL
    driver (aiomysql / pymysql) is a transition function on an abstract
    server state; coroutines are computations in a state-and-exception
    monad over the world the program can observe. *)

From Stdlib Require Import Strings.String Strings.Ascii Lists.List ZArith Bool Lia.
Import ListNotations.

Local Open Scope list_scope.
Local Open Scope string_scope.

(** ** Python values *)

(** The values that reach the driver as bound parameters.  Only the
    distinction made by [isinstance(v, list)] matters to the program. *)
#[warnings="-register-all"]
Inductive pyval : Type :=
  | PNone
  | PBool (b : bool)
  | PInt (z : Z)
  | PStr (s : string)
  | PTuple (items : list pyval)
  | PList (items : list pyval).

Definition isinstance_list (v : pyval) : bool :=
  match v with
  | PList _ => true
  | _ => false
  end.

(** [len(v)] of a value; the WHERE builder calls it on lists only. *)
Definition len (v : pyval) : nat :=
  match v with
  | PList items | PTuple items => List.length items
  | PStr s => String.length s
  | _ => 0
  end.

(** A [dict] with string keys, in iteration order. *)
Definition dict (V : Type) : Type := list (string * V).

Definition dict_keys {V} (d : dict V) : list string := map fst d.
Definition dict_values {V} (d : dict V) : list V := map snd d.

(** [k in d] *)
Definition contains {V} (d : dict V) (k : string) : bool :=
  existsb (String.eqb k) (dict_keys d).

(** [l.append(x)] *)
Definition list_append {A} (l : list A) (x : A) : list A := (l ++ [x])%list.

(** ** Python string operations *)

(** [sep.join(parts)] *)
Definition join (sep : string) (parts : list string) : string :=
  String.concat sep parts.

(** [s.replace(old, new)] scans left to right and replaces every
    non-overlapping occurrence of [old].  [skip] counts the characters of
    an occurrence that has just been replaced and are still to be
    dropped. *)
Fixpoint replace_from (old new : string) (skip : nat) (s : string) : string :=
  match s with
  | EmptyString => EmptyString
  | String c rest =>
      match skip with
      | S n => replace_from old new n rest
      | O =>
          if String.prefix old s
          then new ++ replace_from old new (String.length old - 1) rest
          else String c (replace_from old new 0 rest)
      end
  end.

(** With an empty [old], Python inserts [new] before every character and
    at the end. *)
Fixpoint replace_empty (new s : string) : string :=
  match s with
  | EmptyString => new
  | String c rest => new ++ String c (replace_empty new rest)
  end.

Definition str_replace (s old new : string) : string :=
  match old with
  | EmptyString => replace_empty new s
  | _ => replace_from old new 0 s
  end.

(** The f-string fragment [`{k.replace("`", "``")}`] that the program
    writes at every place where it interpolates a column name. *)
Definition backtick_fmt (k : string) : string :=
  "`" ++ str_replace k "`" "``" ++ "`".

(** ** make_where_statement *)

(** One iteration of the [for k, v in items.items()] loop, on the two
    accumulators [template] and [values]. *)
Definition where_step (acc : list string * list pyval) (kv : string * pyval)
  : list string * list pyval :=
  let '(template, vals) := acc in
  let '(k, v) := kv in
  if isinstance_list v then
    if Nat.eqb (len v) 0 then (list_append template "FALSE", vals)
    else (list_append template (backtick_fmt k ++ " IN %s"), list_append vals v)
  else (list_append template (backtick_fmt k ++ " = %s"), list_append vals v).

Definition where_loop (items : dict pyval) : list string * list pyval :=
  fold_left where_step items ([], []).

Definition make_where_statement (items : dict pyval) : string * list pyval :=
  let '(template, vals) := where_loop items in
  (join " AND " template, vals).

(** ** Exceptions *)

(** The exception classes the program can meet: Python's [Exception] and
    [AssertionError], the classes of [pymysql.err], and any other class
    (named by its qualified name) deriving from [Exception]. *)
Inductive exn_class : Type :=
  | Exception_
  | AssertionError
  | MySQLError
  | Error
  | InterfaceError
  | DatabaseError
  | DataError
  | OperationalError
  | IntegrityError
  | InternalError
  | ProgrammingError
  | NotSupportedError
  | OtherException (qualname : string).

Definition exn_class_eq_dec (c d : exn_class) : {c = d} + {c <> d}.
Proof. decide equality. apply string_dec. Defined.

(** A class followed by its base classes, as [pymysql/err.py] declares
    them. *)
Definition mro (c : exn_class) : list exn_class :=
  match c with
  | Exception_ => [Exception_]
  | AssertionError => [AssertionError; Exception_]
  | MySQLError => [MySQLError; Exception_]
  | Error => [Error; MySQLError; Exception_]
  | InterfaceError => [InterfaceError; Error; MySQLError; Exception_]
  | DatabaseError => [DatabaseError; Error; MySQLError; Exception_]
  | DataError => [DataError; DatabaseError; Error; MySQLError; Exception_]
  | OperationalError => [OperationalError; DatabaseError; Error; MySQLError; Exception_]
  | IntegrityError => [IntegrityError; DatabaseError; Error; MySQLError; Exception_]
  | InternalError => [InternalError; DatabaseError; Error; MySQLError; Exception_]
  | ProgrammingError => [ProgrammingError; DatabaseError; Error; MySQLError; Exception_]
  | NotSupportedError => [NotSupportedError; DatabaseError; Error; MySQLError; Exception_]
  | OtherException q => [OtherException q; Exception_]
  end.

Definition issubclass (c d : exn_class) : bool :=
  existsb (fun b => if exn_class_eq_dec b d then true else false) (mro c).

Record pyexn : Type := mk_exn { exn_type : exn_class; exn_args : list pyval }.

Inductive outcome (A : Type) : Type :=
  | Return (a : A)
  | Raise (e : pyexn).
Arguments Return {A} a.
Arguments Raise {A} e.

(** ** The driver *)

(** What [cursor.execute(sql, args)] is called with; [args] is [None] when
    the program passes the statement alone. *)
Record statement : Type := mk_statement { sql : string; args : option (list pyval) }.

(** A row of a [DictCursor]. *)
Definition row : Type := dict pyval.

(** The cursor after a statement has run: [rowcount] is the number
    [execute] returns, [rows] is what [fetchone] and [fetchall] read. *)
Record cursor_result : Type :=
  mk_result { rowcount : Z; rows : list row; lastrowid : Z }.

(** [cursor.fetchone()] right after [execute]: the first row, or [None]. *)
Definition fetchone (r : cursor_result) : option row := hd_error (rows r).

Definition fetchall (r : cursor_result) : list row := rows r.

Record Database : Type :=
  mk_Database {
    host : string;
    port : Z;
    user : string;
    db : string;
    password : string;
    charset : string
  }.

Record Table : Type := mk_Table { name : string; _db : Database }.

(** ** SQL texts

    Each program point [sql = f"..."] as a function of the variables it
    interpolates. *)

Definition has_table_sql : string :=
  "SELECT * FROM INFORMATION_SCHEMA.tables " ++
  "WHERE TABLE_SCHEMA = %s AND TABLE_NAME = %s".

Definition drop_table_sql (names : list string) : string :=
  "DROP TABLE IF EXISTS " ++ join "," (map (fun name => "`" ++ name ++ "`") names).

Definition create_table_sql (name : string) (schema : dict string)
    (keys : list string) (can_exist : bool) : string :=
  let schema := join ", " (map (fun '(n, t) => backtick_fmt n ++ " " ++ t) schema) in
  let key_names := join ", " (map backtick_fmt keys) in
  let keys := match keys with
              | [] => ""
              | _ => ", PRIMARY KEY( " ++ key_names ++ " )"
              end in
  let exists_ := if can_exist then "IF NOT EXISTS" else "" in
  "CREATE TABLE " ++ exists_ ++ " `" ++ name ++ "` ( " ++ schema ++ " " ++ keys ++ ")".

Definition new_record_sql (self : Table) (items : dict pyval) : string :=
  let names := join ", " (map backtick_fmt (dict_keys items)) in
  let values_template := join ", " (map (fun _ => "%s") (dict_values items)) in
  "INSERT INTO `" ++ name self ++ "` (" ++ names ++ ") VALUES (" ++ values_template ++ ")".

Definition update_record_sql (self : Table) (set_items : dict pyval)
    (where_template : string) : string :=
  let set_template := join ", " (map (fun '(k, _) => backtick_fmt k ++ " = %s") set_items) in
  "UPDATE `" ++ name self ++ "` SET " ++ set_template ++ " WHERE " ++ where_template.

Definition get_record_sql (self : Table) (select_fields : option (list string))
    (where_template : string) : string :=
  let select_fields := match select_fields with
                       | Some fields => join "," fields
                       | None => "*"
                       end in
  "SELECT " ++ select_fields ++ " FROM `" ++ name self ++ "` WHERE " ++ where_template.

Definition has_record_sql (self : Table) (where_template : string) : string :=
  "SELECT COUNT(1) FROM `" ++ name self ++ "` WHERE " ++ where_template.

Definition delete_record_sql (self : Table) (where_template : string) : string :=
  "DELETE FROM `" ++ name self ++ "` WHERE " ++ where_template.

(** ** Coroutines over a database server *)

Section Driver.

(** The server behind the pool: its state, and how it answers one
    statement.  A failed statement is an exception raised by
    [cursor.execute]. *)
Variable Server : Type.
Variable respond : statement -> Server -> outcome cursor_result * Server.

(** [uuid.uuid4().hex], by the number of identifiers drawn so far. *)
Variable uuid4_hex : nat -> string.

(** What a coroutine of the program can change: the server, the
    statements that were handed to [cursor.execute], and the count of
    random identifiers drawn. *)
Record world : Type :=
  mk_world { server : Server; sent : list statement; drawn : nat }.

Definition coroutine (A : Type) : Type := world -> outcome A * world.

Definition ret {A} (a : A) : coroutine A := fun w => (Return a, w).

Definition raise {A} (e : pyexn) : coroutine A := fun w => (Raise e, w).

Definition bind {A B} (c : coroutine A) (k : A -> coroutine B) : coroutine B :=
  fun w =>
    match c w with
    | (Return a, w') => k a w'
    | (Raise e, w') => (Raise e, w')
    end.

Notation "x <- c ;; k" := (bind c (fun x => k))
  (at level 61, c at next level, right associativity).
Notation "c ;; k" := (bind c (fun _ => k))
  (at level 61, right associativity).

(** [try: body / except cls: handler] *)
Definition try_except {A} (body : coroutine A) (cls : exn_class)
    (handler : coroutine A) : coroutine A :=
  fun w =>
    match body w with
    | (Return a, w') => (Return a, w')
    | (Raise e, w') =>
        if issubclass (exn_type e) cls then handler w' else (Raise e, w')
    end.

(** [assert b] *)
Definition py_assert (b : bool) : coroutine unit :=
  if b then ret tt else raise (mk_exn AssertionError []).

(** [await cursor.execute(sql, args)] on a cursor of a pooled
    connection.  Acquiring and releasing the connection and the cursor
    send nothing and are not modelled. *)
Definition cursor_execute (sql : string) (args : option (list pyval))
  : coroutine cursor_result :=
  fun w =>
    let stmt := mk_statement sql args in
    let '(r, s) := respond stmt (server w) in
    (r, mk_world s (list_append (sent w) stmt) (drawn w)).

Definition uuid4 : coroutine string :=
  fun w => (Return (uuid4_hex (drawn w)), mk_world (server w) (sent w) (S (drawn w))).

(** *** class Database *)

Definition has_table (self : Database) (name : string) : coroutine bool :=
  cursor <- cursor_execute has_table_sql (Some [PStr (db self); PStr name]) ;;
  let result := fetchone cursor in
  ret (match result with Some _ => true | None => false end).

Definition drop_table (self : Database) (names : list string) : coroutine unit :=
  cursor_execute (drop_table_sql names) None ;;
  ret tt.

Definition create_table (self : Database) (name : string) (schema : dict string)
    (keys : list string) (can_exist : bool) : coroutine unit :=
  py_assert (forallb (contains schema) keys) ;;
  cursor_execute (create_table_sql name schema keys can_exist) None ;;
  ret tt.

(** [await Table(db, name, schema, keys, can_exist)] *)
Definition Table_init (db : Database) (name : string) (schema : dict string)
    (keys : list string) (can_exist : bool) : coroutine Table :=
  create_table db name schema keys can_exist ;;
  ret (mk_Table name db).

(** The body of the [try] in [create_temporary_table]. *)
Definition temporary_table_attempt (self : Database) (root_name : string)
    (schema : dict string) (keys : list string) : coroutine Table :=
  hex <- uuid4 ;;
  let suffix := String.substring 0 8 hex in
  let name := root_name ++ "-" ++ suffix in
  Table_init self name schema keys false.

(** [for i in range: try: return ... except InternalError: pass], then
    the [raise] after the loop. *)
Fixpoint temporary_table_loop (self : Database) (root_name : string)
    (schema : dict string) (keys : list string) (range : list nat)
  : coroutine Table :=
  match range with
  | [] => raise (mk_exn Exception_ [PStr "Too many attempts to get temp table."])
  | _ :: rest =>
      try_except (temporary_table_attempt self root_name schema keys)
        InternalError
        (temporary_table_loop self root_name schema keys rest)
  end.

Definition create_temporary_table (self : Database) (root_name : string)
    (schema : dict string) (keys : list string) : coroutine Table :=
  temporary_table_loop self root_name schema keys (seq 0 5).

(** *** class Table *)

Definition new_record (self : Table) (items : dict pyval) : coroutine Z :=
  cursor <- cursor_execute (new_record_sql self items) (Some (dict_values items)) ;;
  let id := lastrowid cursor in
  ret id.

Definition update_record (self : Table) (where_items set_items : dict pyval)
  : coroutine unit :=
  if negb (Nat.eqb (List.length set_items) 0) then
    let '(where_template, where_values) := make_where_statement where_items in
    let set_values := dict_values set_items in
    cursor_execute (update_record_sql self set_items where_template)
      (Some (set_values ++ where_values)%list) ;;
    ret tt
  else ret tt.

Definition get_record (self : Table) (where_items : dict pyval)
    (select_fields : option (list string)) : coroutine (list row) :=
  py_assert (match select_fields with
             | None => true
             | Some fields => negb (Nat.eqb (List.length fields) 0)
             end) ;;
  let '(where_template, where_values) := make_where_statement where_items in
  cursor <- cursor_execute (get_record_sql self select_fields where_template)
              (Some where_values) ;;
  let result := fetchall cursor in
  ret result.

Definition has_record (self : Table) (where_items : dict pyval) : coroutine bool :=
  let '(where_template, where_values) := make_where_statement where_items in
  cursor <- cursor_execute (has_record_sql self where_template) (Some where_values) ;;
  let count := rowcount cursor in
  ret (1 <=? count)%Z.

Definition delete_record (self : Table) (where_items : dict pyval) : coroutine unit :=
  let '(where_template, where_values) := make_where_statement where_items in
  cursor_execute (delete_record_sql self where_template) (Some where_values) ;;
  ret tt.

(** The world after [n] attempts in a row of [create_temporary_table]
    that each ended in an exception caught by [except InternalError];
    [None] when one of them ended otherwise. *)
Fixpoint collisions (self : Database) (root_name : string)
    (schema : dict string) (keys : list string) (n : nat) (w : world)
  : option world :=
  match n with
  | O => Some w
  | S m =>
      match temporary_table_attempt self root_name schema keys w with
      | (Raise e, w') =>
          if issubclass (exn_type e) InternalError
          then collisions self root_name schema keys m w'
          else None
      | (Return _, _) => None
      end
  end.

End Driver.

Arguments mk_world {Server} _ _ _.
Arguments server {Server} _.
Arguments sent {Server} _.
Arguments drawn {Server} _.
Arguments ret {Server A} _ _.
Arguments raise {Server A} _ _.
Arguments bind {Server A B} _ _ _.
Arguments try_except {Server A} _ _ _ _.
Arguments py_assert {Server} _ _.
Arguments cursor_execute {Server} respond sql args _.
Arguments uuid4 {Server} uuid4_hex _.
Arguments has_table {Server} respond self name _.
Arguments drop_table {Server} respond self names _.
Arguments create_table {Server} respond self name schema keys can_exist _.
Arguments Table_init {Server} respond db name schema keys can_exist _.
Arguments temporary_table_attempt {Server} respond uuid4_hex self root_name schema keys _.
Arguments temporary_table_loop {Server} respond uuid4_hex self root_name schema keys range _.
Arguments create_temporary_table {Server} respond uuid4_hex self root_name schema keys _.
Arguments collisions {Server} respond uuid4_hex self root_name schema keys n w.
Arguments new_record {Server} respond self items _.
Arguments update_record {Server} respond self where_items set_items _.
Arguments get_record {Server} respond self where_items select_fields _.
Arguments has_record {Server} respond self where_items _.
Arguments delete_record {Server} respond self where_items _.

(** ** Identifier quoting, as a specification *)

(** Every backtick of a name written twice. *)
Fixpoint double_backticks (s : string) : string :=
  match s with
  | EmptyString => EmptyString
  | String c rest =>
      if Ascii.eqb c "`"%char
      then String "`" (String "`" (double_backticks rest))
      else String c (double_backticks rest)
  end.

(** A name between backticks, its own backticks doubled. *)
Definition quote_ident (s : string) : string :=
  "`" ++ double_backticks s ++ "`".

(** A name between backticks, as it is. *)
Definition wrap_ident (s : string) : string :=
  "`" ++ s ++ "`".

(** Reading a quoted identifier back: after the opening backtick, a
    doubled backtick is one character of the name and a single one closes
    the identifier, which must end there. *)
Fixpoint unquote_body (s : string) : option string :=
  match s with
  | EmptyString => None
  | String c rest =>
      if Ascii.eqb c "`"%char then
        match rest with
        | EmptyString => Some EmptyString
        | String d rest' =>
            if Ascii.eqb d "`"%char
            then option_map (String "`") (unquote_body rest')
            else None
        end
      else option_map (String c) (unquote_body rest)
  end.

Definition unquote_ident (s : string) : option string :=
  match s with
  | String c rest => if Ascii.eqb c "`"%char then unquote_body rest else None
  | EmptyString => None
  end.

(** ** Servers used in the examples *)

(** A server whose catalog is a list of table names: it answers the
    information-schema query with one row when the table is listed and
    accepts every other statement. *)
Definition catalog_respond (stmt : statement) (tables : list string)
  : outcome cursor_result * list string :=
  match args stmt with
  | Some [PStr schema; PStr table] =>
      if existsb (String.eqb table) tables
      then (Return (mk_result 1
                      [[("TABLE_SCHEMA", PStr schema); ("TABLE_NAME", PStr table)]] 0),
            tables)
      else (Return (mk_result 0 [] 0), tables)
  | _ => (Return (mk_result 0 [] 0), tables)
  end.

(** MySQL's error number for a table that already exists,
    [ER_TABLE_EXISTS_ERROR], is 1050.  An exception reports a name
    collision when that number is its first argument, whatever the class
    the driver raises it in. *)
Definition is_name_collision (e : pyexn) : bool :=
  match exn_args e with
  | PInt errno :: _ => Z.eqb errno 1050
  | _ => false
  end.

(** A server on which every statement fails with MySQL error 1050,
    raised in the class [InternalError], where PyMySQL 0.9 puts the error
    numbers it has no class for. *)
Definition colliding_respond (stmt : statement) (s : unit)
  : outcome cursor_result * unit :=
  (Raise (mk_exn InternalError [PInt 1050; PStr "Table already exists"]), s).

(** The same failure raised in the class [OperationalError], where
    PyMySQL 0.10 and later put it. *)
Definition operational_collision_respond (stmt : statement) (s : unit)
  : outcome cursor_result * unit :=
  (Raise (mk_exn OperationalError [PInt 1050; PStr "Table already exists"]), s).

(** A server on which every statement fails with MySQL error 1114, a
    full table, raised in the class [InternalError]. *)
Definition full_respond (stmt : statement) (s : unit)
  : outcome cursor_result * unit :=
  (Raise (mk_exn InternalError [PInt 1114; PStr "The table is full"]), s).

(** A server on which every statement fails with a lost connection,
    which pymysql raises as [OperationalError]. *)
Definition unreachable_respond (stmt : statement) (s : unit)
  : outcome cursor_result * unit :=
  (Raise (mk_exn OperationalError [PInt 2013; PStr "Lost connection to MySQL server during query"]), s).

(** A server holding [n] rows that match whatever is asked: a
    [SELECT COUNT(1)] has a result set of exactly one row, whose single
    column holds [n]; the driver reports the size of the result set, 1,
    as the statement's row count. *)
Definition counting_respond (stmt : statement) (n : Z)
  : outcome cursor_result * Z :=
  (Return (mk_result 1 [[("COUNT(1)", PInt n)]] 0), n).

(** The value of the [COUNT(1)] column of the first row of a reply. *)
Definition count_value (r : cursor_result) : option pyval :=
  match fetchone r with
  | Some ((_, v) :: _) => Some v
  | _ => None
  end.

Definition constant_uuid (n : nat) : string := "0123456789abcdef0123456789abcdef".

Definition example_db : Database :=
  mk_Database "localhost" 3306 "batch" "batch" "secret" "utf8".

(** A server holding the rows of one table, which answers every
    statement with all of them. *)
Definition table_respond (stmt : statement) (held : list row)
  : outcome cursor_result * list row :=
  (Return (mk_result (Z.of_nat (List.length held)) held 0), held).

(** A server with an auto-increment counter: every statement is
    accepted and reports the next identifier as [lastrowid]. *)
Definition autoincrement_respond (stmt : statement) (next : Z)
  : outcome cursor_result * Z :=
  (Return (mk_result 1 [] next), (next + 1)%Z).

Definition example_table : Table := mk_Table "jobs" example_db.

Definition lost_connection : pyexn :=
  mk_exn OperationalError [PInt 2013; PStr "Lost connection to MySQL server during query"].

(** ** Placeholders of a statement text *)

(** The number of percent signs of a text. *)
Fixpoint count_percent (s : string) : nat :=
  match s with
  | EmptyString => 0
  | String c rest =>
      (if Ascii.eqb c "%"%char then 1 else 0) + count_percent rest
  end.

(** The number of places of a text where [%s] stands: the driver
    formats the text with [%], which puts one bound value at each. *)
Fixpoint count_placeholders (s : string) : nat :=
  match s with
  | EmptyString => 0
  | String c rest =>
      (if Ascii.eqb c "%"%char
       then match rest with
            | String d _ => if Ascii.eqb d "s"%char then 1 else 0
            | EmptyString => 0
            end
       else 0)
      + count_placeholders rest
  end.

(** * Properties *)

(** ** Strings *)

Lemma prefix_empty (s : string) : String.prefix "" s = true.
Proof. destruct s; reflexivity. Qed.

Lemma append_assoc (a b c : string) : (a ++ b) ++ c = a ++ (b ++ c).
Proof. induction a as [|x a IH]; simpl; [reflexivity | now rewrite IH]. Qed.

Lemma append_empty_r (a : string) : a ++ "" = a.
Proof. induction a as [|x a IH]; simpl; [reflexivity | now rewrite IH]. Qed.

(** [k.replace("`", "``")] doubles every backtick of [k] and changes
    nothing else. *)
Lemma str_replace_backtick (k : string) :
  str_replace k "`" "``" = double_backticks k.
Proof.
  unfold str_replace.
  induction k as [|c rest IH]; [reflexivity|].
  cbn [replace_from double_backticks String.prefix String.length Nat.sub].
  destruct (ascii_dec "`" c) as [<-|Hne].
  - rewrite prefix_empty. simpl. now rewrite IH.
  - destruct (Ascii.eqb c "`") eqn:E.
    + apply Ascii.eqb_eq in E. congruence.
    + now rewrite IH.
Qed.

Lemma backtick_fmt_quote (k : string) : backtick_fmt k = quote_ident k.
Proof. unfold backtick_fmt, quote_ident. now rewrite str_replace_backtick. Qed.

Lemma map_backtick_fmt (l : list string) : map backtick_fmt l = map quote_ident l.
Proof. apply map_ext. exact backtick_fmt_quote. Qed.

Lemma unquote_double_backticks (s : string) :
  unquote_body (double_backticks s ++ "`") = Some s.
Proof.
  induction s as [|c rest IH]; [reflexivity|].
  simpl. destruct (Ascii.eqb c "`") eqn:E.
  - apply Ascii.eqb_eq in E. subst c. simpl. now rewrite IH.
  - simpl. rewrite E. now rewrite IH.
Qed.

(** Quoting loses nothing: the name is read back from its quoted form,
    so two names are quoted alike only when they are equal. *)
Lemma unquote_quote_ident (s : string) : unquote_ident (quote_ident s) = Some s.
Proof. unfold quote_ident. simpl. apply unquote_double_backticks. Qed.

Lemma quote_ident_inj (s t : string) : quote_ident s = quote_ident t -> s = t.
Proof.
  intros H. apply (f_equal unquote_ident) in H.
  rewrite !unquote_quote_ident in H. congruence.
Qed.

(** ** The WHERE builder *)

Example make_where_statement_ex :
  make_where_statement
    [("id", PInt 1); ("na`me", PList [PStr "a"; PStr "b"]); ("x", PList [])]
  = ("`id` = %s AND `na``me` IN %s AND FALSE", [PInt 1; PList [PStr "a"; PStr "b"]]).
Proof. reflexivity. Qed.

Lemma where_fold_acc (items : dict pyval) (acc : list string * list pyval) :
  fold_left where_step items acc
  = ((fst acc ++ fst (where_loop items))%list, (snd acc ++ snd (where_loop items))%list).
Proof.
  unfold where_loop. revert acc.
  induction items as [|kv items IH]; intros [template vals].
  - simpl. now rewrite !app_nil_r.
  - cbn [fold_left]. rewrite IH. rewrite (IH (where_step ([], []) kv)).
    destruct kv as [k v]. unfold where_step, list_append.
    destruct (isinstance_list v); [destruct (Nat.eqb (len v) 0)|];
      simpl; now rewrite <- ?app_assoc.
Qed.

Lemma where_loop_cons (kv : string * pyval) (items : dict pyval) :
  where_loop (kv :: items)
  = ((fst (where_step ([], []) kv) ++ fst (where_loop items))%list,
     (snd (where_step ([], []) kv) ++ snd (where_loop items))%list).
Proof. unfold where_loop at 1. cbn [fold_left]. apply where_fold_acc. Qed.

Lemma where_loop_app (a b : dict pyval) :
  where_loop (a ++ b)%list
  = ((fst (where_loop a) ++ fst (where_loop b))%list,
     (snd (where_loop a) ++ snd (where_loop b))%list).
Proof.
  unfold where_loop at 1. rewrite fold_left_app.
  fold (where_loop a). apply where_fold_acc.
Qed.

Lemma make_where_statement_loop (items : dict pyval) :
  make_where_statement items
  = (join " AND " (fst (where_loop items)), snd (where_loop items)).
Proof. unfold make_where_statement. now destruct (where_loop items). Qed.

Lemma where_loop_scalars (items : dict pyval) :
  (forall k v, In (k, v) items -> isinstance_list v = false) ->
  where_loop items
  = (map (fun kv => quote_ident (fst kv) ++ " = %s") items, dict_values items).
Proof.
  induction items as [|[k v] items IH]; intros Hs; [reflexivity|].
  rewrite where_loop_cons, IH by (intros; eapply Hs; right; eassumption).
  unfold where_step. rewrite (Hs k v) by now left.
  rewrite backtick_fmt_quote. reflexivity.
Qed.

(** C4: for a filter mapping whose values are all scalars (not lists),
    [make_where_statement] returns the terms [<quoted column> = %s], one
    per key and in the mapping's iteration order, joined by [" AND "],
    and the scalar values in that same order as bound values.  The
    equation holds for the empty mapping too, so in particular for every
    non-empty one. *)
Theorem make_where_statement_scalars (items : dict pyval) :
  (forall k v, In (k, v) items -> isinstance_list v = false) ->
  make_where_statement items
  = (join " AND " (map (fun kv => quote_ident (fst kv) ++ " = %s") items),
     dict_values items)
  /\ List.length (fst (where_loop items)) = List.length (dict_keys items).
Proof.
  intros Hs. rewrite make_where_statement_loop, where_loop_scalars by exact Hs.
  split; [reflexivity|]. unfold dict_keys. simpl. now rewrite !length_map.
Qed.

Lemma make_where_statement_scalars_witness :
  (forall k v, In (k, v) [("id", PInt 1); ("na`me", PStr "a")] ->
               isinstance_list v = false)
  /\ make_where_statement [("id", PInt 1); ("na`me", PStr "a")]
     = ("`id` = %s AND `na``me` = %s", [PInt 1; PStr "a"]).
Proof.
  assert (H : forall k v, In (k, v) [("id", PInt 1); ("na`me", PStr "a")] ->
                          isinstance_list v = false).
  { simpl. intros k v [E|[E|[]]]; inversion E; reflexivity. }
  split; [exact H|].
  exact (proj1 (make_where_statement_scalars _ H)).
Defined.

(** C5: a key whose value is the empty list contributes the term
    [FALSE] at its place among the terms and nothing to the bound
    values; a key whose value is a non-empty list contributes the term
    [<quoted column> IN %s] and the whole list as one bound value. *)
Theorem make_where_statement_lists (pre post : dict pyval) (k : string) :
  make_where_statement (pre ++ (k, PList []) :: post)%list
  = (join " AND " (fst (where_loop pre) ++ "FALSE" :: fst (where_loop post))%list,
     (snd (where_loop pre) ++ snd (where_loop post))%list)
  /\ forall x l,
      make_where_statement (pre ++ (k, PList (x :: l)) :: post)%list
      = (join " AND "
           (fst (where_loop pre) ++ (quote_ident k ++ " IN %s")%string :: fst (where_loop post))%list,
         (snd (where_loop pre) ++ PList (x :: l) :: snd (where_loop post))%list).
Proof.
  split; [|intros x l];
    rewrite make_where_statement_loop, where_loop_app, where_loop_cons;
    unfold where_step; cbn [isinstance_list len List.length Nat.eqb];
    rewrite ?backtick_fmt_quote; reflexivity.
Qed.

(** C9: the empty filter mapping gives the empty predicate template and
    no bound value. *)
Theorem make_where_statement_empty : make_where_statement [] = ("", []).
Proof. reflexivity. Qed.

(** ** Identifiers in the generated SQL *)

(** The terms of the WHERE builder name their column in quoted form. *)
Lemma where_terms_quoted (items : dict pyval) :
  Forall2 (fun kv term =>
             term = "FALSE"
             \/ term = quote_ident (fst kv) ++ " IN %s"
             \/ term = quote_ident (fst kv) ++ " = %s")
          items (fst (where_loop items)).
Proof.
  induction items as [|[k v] items IH]; [constructor|].
  rewrite where_loop_cons. unfold where_step.
  destruct (isinstance_list v); [destruct (Nat.eqb (len v) 0)|];
    cbn [fst snd list_append app]; constructor; auto;
    rewrite backtick_fmt_quote; auto.
Qed.

Lemma create_table_sql_quoted (name : string) (schema : dict string)
    (keys : list string) (can_exist : bool) :
  create_table_sql name schema keys can_exist
  = "CREATE TABLE " ++ (if can_exist then "IF NOT EXISTS" else "") ++ " "
    ++ wrap_ident name ++ " ( "
    ++ join ", " (map (fun nt => quote_ident (fst nt) ++ " " ++ snd nt) schema)
    ++ " "
    ++ match keys with
       | [] => ""
       | _ => ", PRIMARY KEY( " ++ join ", " (map quote_ident keys) ++ " )"
       end
    ++ ")".
Proof.
  unfold create_table_sql, wrap_ident.
  rewrite map_backtick_fmt.
  replace (map (fun '(n, t) => backtick_fmt n ++ " " ++ t) schema)
    with (map (fun nt : string * string => quote_ident (fst nt) ++ " " ++ snd nt) schema)
    by (apply map_ext; intros [n t]; cbn [fst snd]; now rewrite backtick_fmt_quote).
  rewrite !append_assoc. reflexivity.
Qed.

Lemma new_record_sql_quoted (self : Table) (items : dict pyval) :
  new_record_sql self items
  = "INSERT INTO " ++ wrap_ident (name self) ++ " ("
    ++ join ", " (map quote_ident (dict_keys items))
    ++ ") VALUES (" ++ join ", " (map (fun _ => "%s") items) ++ ")".
Proof.
  unfold new_record_sql, wrap_ident, dict_values.
  rewrite map_backtick_fmt, map_map, !append_assoc. reflexivity.
Qed.

Lemma update_record_sql_quoted (self : Table) (set_items : dict pyval)
    (where_template : string) :
  update_record_sql self set_items where_template
  = "UPDATE " ++ wrap_ident (name self) ++ " SET "
    ++ join ", " (map (fun kv => quote_ident (fst kv) ++ " = %s") set_items)
    ++ " WHERE " ++ where_template.
Proof.
  unfold update_record_sql, wrap_ident.
  replace (map (fun '(k, _) => backtick_fmt k ++ " = %s") set_items)
    with (map (fun kv : string * pyval => quote_ident (fst kv) ++ " = %s") set_items)
    by (apply map_ext; intros [k v]; cbn [fst snd]; now rewrite backtick_fmt_quote).
  rewrite !append_assoc. reflexivity.
Qed.

(** C2, as the program has it: column names are written between
    backticks with their own backticks doubled, in the terms of the WHERE
    builder, in the column definitions and the PRIMARY KEY list of CREATE
    TABLE, in the column list of INSERT and in the SET list of UPDATE;
    table names are written between backticks as they are, in CREATE
    TABLE, DROP TABLE, INSERT, UPDATE, SELECT, SELECT COUNT(1) and
    DELETE.  Nothing is said of the projection of SELECT. *)
Theorem sql_identifiers (self : Table) (where_template : string) :
  (forall items,
      Forall2 (fun kv term =>
                 term = "FALSE"
                 \/ term = quote_ident (fst kv) ++ " IN %s"
                 \/ term = quote_ident (fst kv) ++ " = %s")
              items (fst (where_loop items)))
  /\ (forall name schema keys can_exist,
         create_table_sql name schema keys can_exist
         = "CREATE TABLE " ++ (if can_exist then "IF NOT EXISTS" else "") ++ " "
           ++ wrap_ident name ++ " ( "
           ++ join ", " (map (fun nt => quote_ident (fst nt) ++ " " ++ snd nt) schema)
           ++ " "
           ++ match keys with
              | [] => ""
              | _ => ", PRIMARY KEY( " ++ join ", " (map quote_ident keys) ++ " )"
              end
           ++ ")")
  /\ (forall names,
         drop_table_sql names
         = "DROP TABLE IF EXISTS " ++ join "," (map wrap_ident names))
  /\ (forall items,
         new_record_sql self items
         = "INSERT INTO " ++ wrap_ident (name self) ++ " ("
           ++ join ", " (map quote_ident (dict_keys items))
           ++ ") VALUES (" ++ join ", " (map (fun _ => "%s") items) ++ ")")
  /\ (forall set_items,
         update_record_sql self set_items where_template
         = "UPDATE " ++ wrap_ident (name self) ++ " SET "
           ++ join ", " (map (fun kv => quote_ident (fst kv) ++ " = %s") set_items)
           ++ " WHERE " ++ where_template)
  /\ (forall select_fields, exists projection,
         get_record_sql self select_fields where_template
         = "SELECT " ++ projection ++ " FROM " ++ wrap_ident (name self)
           ++ " WHERE " ++ where_template)
  /\ has_record_sql self where_template
     = "SELECT COUNT(1) FROM " ++ wrap_ident (name self) ++ " WHERE " ++ where_template
  /\ delete_record_sql self where_template
     = "DELETE FROM " ++ wrap_ident (name self) ++ " WHERE " ++ where_template.
Proof.
  repeat split.
  - exact where_terms_quoted.
  - exact create_table_sql_quoted.
  - exact (new_record_sql_quoted self).
  - intros set_items. apply update_record_sql_quoted.
  - intros select_fields.
    exists (match select_fields with Some fields => join "," fields | None => "*" end).
    unfold get_record_sql, wrap_ident. rewrite !append_assoc. reflexivity.
  - unfold has_record_sql, wrap_ident. rewrite !append_assoc. reflexivity.
  - unfold delete_record_sql, wrap_ident. rewrite !append_assoc. reflexivity.
Qed.

(** C2, as it is worded, fails: DROP TABLE writes the table name [a`b]
    with its backtick single, and SELECT writes the projected column [x]
    bare. *)
Lemma identifiers_not_all_quoted :
  drop_table_sql ["a`b"] = "DROP TABLE IF EXISTS `a`b`"
  /\ drop_table_sql ["a`b"] <> "DROP TABLE IF EXISTS " ++ quote_ident "a`b"
  /\ get_record_sql (mk_Table "t" example_db) (Some ["x"]) ""
     = "SELECT x FROM `t` WHERE "
  /\ get_record_sql (mk_Table "t" example_db) (Some ["x"]) ""
     <> "SELECT " ++ quote_ident "x" ++ " FROM `t` WHERE ".
Proof.
  repeat split; try reflexivity; apply String.eqb_neq; reflexivity.
Qed.

(** ** Exception classes *)

(** [except pymysql.err.InternalError] catches that class and no
    other. *)
Lemma issubclass_InternalError (c : exn_class) :
  issubclass c InternalError = true <-> c = InternalError.
Proof.
  split.
  - destruct c; simpl; intros H; try discriminate H; reflexivity.
  - intros ->. reflexivity.
Qed.

Lemma not_InternalError (c : exn_class) :
  c <> InternalError -> issubclass c InternalError = false.
Proof.
  intros H. destruct (issubclass c InternalError) eqn:E; [|reflexivity].
  apply issubclass_InternalError in E. contradiction.
Qed.

(** ** Membership in a dict *)

Lemma contains_In {V} (d : dict V) (k : string) :
  contains d k = true <-> In k (dict_keys d).
Proof.
  unfold contains. rewrite existsb_exists. split.
  - intros [x [Hin Heq]]. apply String.eqb_eq in Heq. now subst.
  - intros Hin. exists k. split; [assumption | apply String.eqb_refl].
Qed.

Lemma all_keys_in_schema {V} (d : dict V) (ks : list string) :
  forallb (contains d) ks = true <-> (forall k, In k ks -> In k (dict_keys d)).
Proof.
  rewrite forallb_forall. split; intros H k Hk; apply contains_In; auto.
Qed.

Lemma some_key_not_in_schema {V} (d : dict V) (ks : list string) :
  (exists k, In k ks /\ ~ In k (dict_keys d)) -> forallb (contains d) ks = false.
Proof.
  intros [k [Hk Hn]]. destruct (forallb (contains d) ks) eqn:E; [|reflexivity].
  exfalso. apply Hn. exact (proj1 (all_keys_in_schema d ks) E k Hk).
Qed.

(** ** Operations against a server *)

Section DriverProperties.

Context {Server : Type}.
Variable respond : statement -> Server -> outcome cursor_result * Server.
Variable uuid4_hex : nat -> string.

Lemma cursor_execute_sent sql args (w : world Server) :
  sent (snd (cursor_execute respond sql args w))
  = list_append (sent w) (mk_statement sql args).
Proof.
  unfold cursor_execute. destruct (respond _ _). reflexivity.
Qed.

Lemma cursor_execute_drawn sql args (w : world Server) :
  drawn (snd (cursor_execute respond sql args w)) = drawn w.
Proof.
  unfold cursor_execute. destruct (respond _ _). reflexivity.
Qed.

(** A coroutine that runs one statement and then only computes from
    the reply leaves the world that the statement left. *)
Lemma bind_execute_sent {A} sql args (k : cursor_result -> A) (w : world Server) :
  sent (snd (bind (cursor_execute respond sql args) (fun c => ret (k c)) w))
  = list_append (sent w) (mk_statement sql args).
Proof.
  unfold bind. rewrite <- cursor_execute_sent.
  destruct (cursor_execute respond sql args w) as [[c|e] w']; reflexivity.
Qed.

(** C7: when the information-schema query for the database name and
    the table name is answered, [has_table] returns a boolean, which is
    [True] exactly when the answer has a row. *)
Theorem has_table_spec (self : Database) (name : string)
    (w w' : world Server) (reply : cursor_result) :
  cursor_execute respond
    "SELECT * FROM INFORMATION_SCHEMA.tables WHERE TABLE_SCHEMA = %s AND TABLE_NAME = %s"
    (Some [PStr (db self); PStr name]) w = (Return reply, w') ->
  exists b : bool,
    has_table respond self name w = (Return b, w')
    /\ (b = true <-> rows reply <> [])
    /\ (b = false <-> rows reply = []).
Proof.
  intros H. unfold has_table, bind. change has_table_sql with
    "SELECT * FROM INFORMATION_SCHEMA.tables WHERE TABLE_SCHEMA = %s AND TABLE_NAME = %s".
  rewrite H. unfold fetchone, ret.
  destruct (rows reply) as [|r rs]; simpl.
  - exists false. repeat split; congruence.
  - exists true. repeat split; congruence.
Qed.

(** A failure of the catalog query is the failure of [has_table]. *)
Lemma has_table_raises (self : Database) (name : string)
    (w w' : world Server) (e : pyexn) :
  cursor_execute respond has_table_sql (Some [PStr (db self); PStr name]) w
  = (Raise e, w') ->
  has_table respond self name w = (Raise e, w').
Proof. intros H. unfold has_table, bind. now rewrite H. Qed.

(** C8: [create_table] fails its assertion, before anything is sent,
    when some primary-key column is not a key of the schema; when all
    are, it runs one CREATE TABLE statement, whose text has a PRIMARY
    KEY clause exactly when the key list is not empty. *)
Theorem create_table_precondition (self : Database) (name : string)
    (schema : dict string) (keys : list string) (can_exist : bool)
    (w : world Server) :
  ((exists k, In k keys /\ ~ In k (dict_keys schema)) ->
     create_table respond self name schema keys can_exist w
     = (Raise (mk_exn AssertionError []), w))
  /\ ((forall k, In k keys -> In k (dict_keys schema)) ->
      let columns :=
        join ", " (map (fun nt => quote_ident (fst nt) ++ " " ++ snd nt) schema) in
      let clause :=
        match keys with
        | [] => ""
        | _ => ", PRIMARY KEY( " ++ join ", " (map quote_ident keys) ++ " )"
        end in
      let text :=
        "CREATE TABLE " ++ (if can_exist then "IF NOT EXISTS" else "")
        ++ " `" ++ name ++ "` ( " ++ columns ++ " " ++ clause ++ ")" in
      create_table respond self name schema keys can_exist w
      = bind (cursor_execute respond text None) (fun _ => ret tt) w
      /\ sent (snd (create_table respond self name schema keys can_exist w))
         = list_append (sent w) (mk_statement text None)).
Proof.
  split.
  - intros Hbad. unfold create_table, bind.
    now rewrite (some_key_not_in_schema schema keys Hbad).
  - intros Hok columns clause text.
    assert (Htext : create_table_sql name schema keys can_exist = text).
    { rewrite create_table_sql_quoted. unfold text, columns, clause, wrap_ident.
      rewrite !append_assoc. reflexivity. }
    assert (Hrun : create_table respond self name schema keys can_exist w
                   = bind (cursor_execute respond text None) (fun _ => ret tt) w).
    { unfold create_table.
      rewrite (proj2 (all_keys_in_schema schema keys) Hok), Htext.
      reflexivity. }
    split; [exact Hrun|].
    rewrite Hrun. apply (bind_execute_sent text None (fun _ => tt)).
Qed.

Lemma update_record_runs (self : Table) (where_items : dict pyval)
    (kv : string * pyval) (set_items : dict pyval) (w : world Server) :
  update_record respond self where_items (kv :: set_items) w
  = bind (cursor_execute respond
            ("UPDATE `" ++ name self ++ "` SET "
             ++ join ", " (map (fun item => quote_ident (fst item) ++ " = %s")
                             (kv :: set_items))
             ++ " WHERE " ++ fst (make_where_statement where_items))
            (Some (dict_values (kv :: set_items)
                   ++ snd (make_where_statement where_items))%list))
         (fun _ => ret tt) w.
Proof.
  unfold update_record. cbn [List.length Nat.eqb negb].
  destruct (make_where_statement where_items) as [where_template where_values].
  rewrite update_record_sql_quoted. unfold wrap_ident. cbn [fst snd].
  rewrite !append_assoc. reflexivity.
Qed.

(** C6: with an empty mapping of values to set, [update_record] runs
    no statement, returns, and leaves the world as it was, whatever the
    filter; with a non-empty one it runs one UPDATE statement whose
    bound values are the values to set followed by the bound values of
    the WHERE builder. *)
Theorem update_record_spec (self : Table) (where_items : dict pyval)
    (w : world Server) :
  update_record respond self where_items [] w = (Return tt, w)
  /\ forall kv set_items,
      let set_items := kv :: set_items in
      let text :=
        "UPDATE `" ++ name self ++ "` SET "
        ++ join ", " (map (fun kv => quote_ident (fst kv) ++ " = %s") set_items)
        ++ " WHERE " ++ fst (make_where_statement where_items) in
      let bound :=
        (dict_values set_items ++ snd (make_where_statement where_items))%list in
      update_record respond self where_items set_items w
      = bind (cursor_execute respond text (Some bound)) (fun _ => ret tt) w
      /\ sent (snd (update_record respond self where_items set_items w))
         = list_append (sent w) (mk_statement text (Some bound)).
Proof.
  split; [reflexivity|].
  intros kv rest set_items text bound.
  pose proof (update_record_runs self where_items kv rest w) as Hrun.
  fold set_items in Hrun. fold text in Hrun. fold bound in Hrun.
  split; [exact Hrun|].
  rewrite Hrun. apply (bind_execute_sent text (Some bound) (fun _ => tt)).
Qed.

(** *** The retry loop of [create_temporary_table] *)

Lemma try_except_return {A} (body handler : coroutine Server A) cls w a w' :
  body w = (Return a, w') -> try_except body cls handler w = (Return a, w').
Proof. intros H. unfold try_except. now rewrite H. Qed.

Lemma try_except_caught {A} (body handler : coroutine Server A) cls w e w' :
  body w = (Raise e, w') -> issubclass (exn_type e) cls = true ->
  try_except body cls handler w = handler w'.
Proof. intros H Hc. unfold try_except. now rewrite H, Hc. Qed.

Lemma try_except_propagates {A} (body handler : coroutine Server A) cls w e w' :
  body w = (Raise e, w') -> issubclass (exn_type e) cls = false ->
  try_except body cls handler w = (Raise e, w').
Proof. intros H Hc. unfold try_except. now rewrite H, Hc. Qed.

(** An attempt that ends in a caught exception has drawn one
    identifier and sent one statement: the assertion of [create_table]
    is not caught, so the exception is the server's. *)
Lemma attempt_caught_effect self root_name schema keys (w w' : world Server) e :
  temporary_table_attempt respond uuid4_hex self root_name schema keys w
  = (Raise e, w') ->
  issubclass (exn_type e) InternalError = true ->
  List.length (sent w') = S (List.length (sent w)) /\ drawn w' = S (drawn w).
Proof.
  unfold temporary_table_attempt, Table_init, create_table, bind, uuid4, py_assert.
  destruct (forallb (contains schema) keys); cbn [ret raise].
  - set (w1 := mk_world (server w) (sent w) (S (drawn w))).
    set (text := create_table_sql _ schema keys false).
    pose proof (cursor_execute_sent text None w1) as Hs.
    pose proof (cursor_execute_drawn text None w1) as Hd.
    destruct (cursor_execute respond text None w1) as [[c|e1] w2];
      cbn [snd] in Hs, Hd; intros H Hc; inversion H; subst.
    rewrite Hs, Hd. unfold list_append. rewrite length_app. cbn. split; lia.
  - intros H Hc. inversion H; subst. discriminate Hc.
Qed.

Lemma collisions_effect self root_name schema keys n (w w' : world Server) :
  collisions respond uuid4_hex self root_name schema keys n w = Some w' ->
  List.length (sent w') = List.length (sent w) + n /\ drawn w' = drawn w + n.
Proof.
  revert w. induction n as [|n IH]; intros w H; cbn [collisions] in H.
  - inversion H. subst. split; lia.
  - destruct (temporary_table_attempt respond uuid4_hex self root_name schema keys w)
      as [[t|e] w1] eqn:Ha; [discriminate|].
    destruct (issubclass (exn_type e) InternalError) eqn:Hc; [|discriminate].
    destruct (attempt_caught_effect _ _ _ _ _ _ _ Ha Hc) as [Hs Hd].
    destruct (IH _ H) as [Hs' Hd']. split; lia.
Qed.

(** After [n] caught attempts the loop goes on with what is left of
    its range. *)
Lemma loop_after_collisions self root_name schema keys n :
  forall done rest (w w' : world Server),
    List.length done = n ->
    collisions respond uuid4_hex self root_name schema keys n w = Some w' ->
    temporary_table_loop respond uuid4_hex self root_name schema keys (done ++ rest) w
    = temporary_table_loop respond uuid4_hex self root_name schema keys rest w'.
Proof.
  induction n as [|n IH]; intros done rest w w' Hlen H; cbn [collisions] in H.
  - destruct done; [|discriminate]. inversion H. reflexivity.
  - destruct done as [|i done]; [discriminate|].
    destruct (temporary_table_attempt respond uuid4_hex self root_name schema keys w)
      as [[t|e] w1] eqn:Ha; [discriminate|].
    destruct (issubclass (exn_type e) InternalError) eqn:Hc; [|discriminate].
    cbn [app temporary_table_loop].
    rewrite (try_except_caught _ _ _ _ _ _ Ha Hc).
    apply IH; [now inversion Hlen | exact H].
Qed.

(** C3, as the program has it: the loop retries by the class of the
    exception, not by what the exception reports.  After [n] attempts in
    a row that each failed with an exception of class [InternalError],
    whatever its arguments, [n] statements have been sent and [n]
    identifiers drawn.  If [n] is 5, [create_temporary_table] raises
    [Exception("Too many attempts to get temp table.")] in the world
    those five attempts left, so there is no sixth.  If [n] is less
    than 5, the next attempt decides: a table it returns is returned,
    and an exception it raises whose class is not [InternalError] is
    raised, both in the world that attempt left. *)
Theorem create_temporary_table_retry (self : Database) (root_name : string)
    (schema : dict string) (keys : list string) (n : nat) (w w' : world Server) :
  collisions respond uuid4_hex self root_name schema keys n w = Some w' ->
  (List.length (sent w') = List.length (sent w) + n /\ drawn w' = drawn w + n)
  /\ (n = 5 ->
      create_temporary_table respond uuid4_hex self root_name schema keys w
      = (Raise (mk_exn Exception_ [PStr "Too many attempts to get temp table."]), w'))
  /\ (n < 5 ->
      forall r w'',
        temporary_table_attempt respond uuid4_hex self root_name schema keys w'
        = (r, w'') ->
        (forall e, r = Raise e -> exn_type e <> InternalError) ->
        create_temporary_table respond uuid4_hex self root_name schema keys w
        = (r, w'')).
Proof.
  intros H. split; [exact (collisions_effect _ _ _ _ _ _ _ H)|]. split.
  - intros ->. unfold create_temporary_table.
    rewrite <- (app_nil_r (seq 0 5)).
    rewrite (loop_after_collisions _ _ _ _ 5 (seq 0 5) [] w w' eq_refl H).
    reflexivity.
  - intros Hn r w'' Ha Hr. unfold create_temporary_table.
    replace (seq 0 5) with (seq 0 n ++ n :: seq (S n) (4 - n))%list.
    + rewrite (loop_after_collisions _ _ _ _ n (seq 0 n) _ w w' (length_seq n 0) H).
      cbn [temporary_table_loop]. destruct r as [t|e].
      * now apply try_except_return.
      * apply try_except_propagates; [exact Ha|].
        apply not_InternalError. now apply Hr.
    + change (n :: seq (S n) (4 - n)) with (seq n (S (4 - n))).
      rewrite <- seq_app. f_equal. lia.
Qed.

(** *** Table operations *)

(** [has_record] answers from the number [execute] returned. *)
Lemma has_record_reads_rowcount (self : Table) (where_items : dict pyval)
    (w w' : world Server) (reply : cursor_result) :
  cursor_execute respond
    (has_record_sql self (fst (make_where_statement where_items)))
    (Some (snd (make_where_statement where_items))) w = (Return reply, w') ->
  has_record respond self where_items w = (Return (1 <=? rowcount reply)%Z, w').
Proof.
  unfold has_record. destruct (make_where_statement where_items) as [t v].
  cbn [fst snd]. intros H. unfold bind. now rewrite H.
Qed.

(** C10: with the empty filter mapping, the statement run by
    [get_record], [has_record], [delete_record] and by [update_record]
    with values to set still ends in the keyword WHERE, followed by the
    empty predicate. *)
Theorem empty_filter_keeps_where (self : Table) (w : world Server) :
  sent (snd (get_record respond self [] None w))
  = list_append (sent w) (mk_statement ("SELECT * FROM `" ++ name self ++ "` WHERE ")
                  (Some []))
  /\ (forall field fields,
        sent (snd (get_record respond self [] (Some (field :: fields)) w))
        = list_append (sent w) (mk_statement
                        ("SELECT " ++ join "," (field :: fields)
                         ++ " FROM `" ++ name self ++ "` WHERE ")
                        (Some [])))
  /\ sent (snd (has_record respond self [] w))
     = list_append (sent w) (mk_statement ("SELECT COUNT(1) FROM `" ++ name self ++ "` WHERE ")
                     (Some []))
  /\ sent (snd (delete_record respond self [] w))
     = list_append (sent w) (mk_statement ("DELETE FROM `" ++ name self ++ "` WHERE ")
                     (Some []))
  /\ (forall kv set_items,
        sent (snd (update_record respond self [] (kv :: set_items) w))
        = list_append (sent w) (mk_statement
                        ("UPDATE `" ++ name self ++ "` SET "
                         ++ join ", " (map (fun item => quote_ident (fst item) ++ " = %s")
                                         (kv :: set_items))
                         ++ " WHERE ")
                        (Some (dict_values (kv :: set_items))))).
Proof.
  repeat split; intros.
  - apply (bind_execute_sent _ _ fetchall).
  - apply (bind_execute_sent _ _ fetchall).
  - apply (bind_execute_sent _ _ (fun c => (1 <=? rowcount c)%Z)).
  - apply (bind_execute_sent _ _ (fun _ => tt)).
  - rewrite update_record_runs, (bind_execute_sent _ _ (fun _ => tt)).
    cbn [make_where_statement where_loop fold_left fst snd join String.concat].
    now rewrite app_nil_r.
Qed.

End DriverProperties.

(** ** The operations on the example servers *)

Lemma has_table_spec_witness :
  cursor_execute catalog_respond
    "SELECT * FROM INFORMATION_SCHEMA.tables WHERE TABLE_SCHEMA = %s AND TABLE_NAME = %s"
    (Some [PStr "batch"; PStr "jobs"]) (mk_world ["jobs"] [] 0)
  = (Return (mk_result 1 [[("TABLE_SCHEMA", PStr "batch"); ("TABLE_NAME", PStr "jobs")]] 0),
     mk_world ["jobs"]
       [mk_statement has_table_sql (Some [PStr "batch"; PStr "jobs"])] 0)
  /\ exists b : bool,
      has_table catalog_respond example_db "jobs" (mk_world ["jobs"] [] 0)
      = (Return b,
         mk_world ["jobs"]
           [mk_statement has_table_sql (Some [PStr "batch"; PStr "jobs"])] 0)
      /\ (b = true <->
          rows (mk_result 1
                  [[("TABLE_SCHEMA", PStr "batch"); ("TABLE_NAME", PStr "jobs")]] 0)
          <> [])
      /\ (b = false <->
          rows (mk_result 1
                  [[("TABLE_SCHEMA", PStr "batch"); ("TABLE_NAME", PStr "jobs")]] 0)
          = []).
Proof.
  split; [reflexivity|].
  exact (has_table_spec catalog_respond example_db "jobs" (mk_world ["jobs"] [] 0)
           _ _ eq_refl).
Defined.

Example has_table_absent :
  has_table catalog_respond example_db "attempts" (mk_world ["jobs"] [] 0)
  = (Return false,
     mk_world ["jobs"]
       [mk_statement has_table_sql (Some [PStr "batch"; PStr "attempts"])] 0).
Proof. reflexivity. Qed.

Lemma create_table_precondition_witness :
  (exists k, In k ["nope"] /\ ~ In k (dict_keys [("id", "INT")]))
  /\ create_table catalog_respond example_db "t" [("id", "INT")] ["nope"] true
       (mk_world [] [] 0)
     = (Raise (mk_exn AssertionError []), mk_world [] [] 0)
  /\ (forall k, In k ["id"] -> In k (dict_keys [("id", "INT")]))
  /\ sent (snd (create_table catalog_respond example_db "t" [("id", "INT")] ["id"] true
                  (mk_world [] [] 0)))
     = [mk_statement "CREATE TABLE IF NOT EXISTS `t` ( `id` INT , PRIMARY KEY( `id` ))"
          None].
Proof.
  assert (Hbad : exists k, In k ["nope"] /\ ~ In k (dict_keys [("id", "INT")])).
  { exists "nope". split; [now left|]. simpl. intros [H|[]]. discriminate H. }
  assert (Hok : forall k, In k ["id"] -> In k (dict_keys [("id", "INT")])).
  { simpl. intros k [H|[]]. now left. }
  split; [exact Hbad|]. split.
  - exact (proj1 (create_table_precondition catalog_respond example_db "t"
                    [("id", "INT")] ["nope"] true (mk_world [] [] 0)) Hbad).
  - split; [exact Hok|].
    exact (proj2 (proj2 (create_table_precondition catalog_respond example_db "t"
                           [("id", "INT")] ["id"] true (mk_world [] [] 0)) Hok)).
Defined.

Example create_table_no_keys :
  sent (snd (create_table catalog_respond example_db "t" [("id", "INT"); ("v", "TEXT")]
               [] false (mk_world [] [] 0)))
  = [mk_statement "CREATE TABLE  `t` ( `id` INT, `v` TEXT )" None].
Proof. reflexivity. Qed.

Lemma create_temporary_table_retry_witness :
  collisions colliding_respond constant_uuid example_db "tmp" [("id", "INT")] ["id"] 5
    (mk_world tt [] 0)
  = Some (mk_world tt
            (repeat (mk_statement "CREATE TABLE  `tmp-01234567` ( `id` INT , PRIMARY KEY( `id` ))"
                       None) 5)
            5)
  /\ create_temporary_table colliding_respond constant_uuid example_db "tmp"
       [("id", "INT")] ["id"] (mk_world tt [] 0)
     = (Raise (mk_exn Exception_ [PStr "Too many attempts to get temp table."]),
        mk_world tt
          (repeat (mk_statement "CREATE TABLE  `tmp-01234567` ( `id` INT , PRIMARY KEY( `id` ))"
                     None) 5)
          5)
  /\ create_temporary_table unreachable_respond constant_uuid example_db "tmp"
       [("id", "INT")] ["id"] (mk_world tt [] 0)
     = (Raise (mk_exn OperationalError
                 [PInt 2013; PStr "Lost connection to MySQL server during query"]),
        mk_world tt
          [mk_statement "CREATE TABLE  `tmp-01234567` ( `id` INT , PRIMARY KEY( `id` ))"
             None]
          1).
Proof.
  assert (H5 : collisions colliding_respond constant_uuid example_db "tmp"
                 [("id", "INT")] ["id"] 5 (mk_world tt [] 0)
               = Some (mk_world tt
                         (repeat (mk_statement
                                    "CREATE TABLE  `tmp-01234567` ( `id` INT , PRIMARY KEY( `id` ))"
                                    None) 5)
                         5)) by reflexivity.
  split; [exact H5|]. split.
  - exact (proj1 (proj2 (create_temporary_table_retry colliding_respond constant_uuid
                           example_db "tmp" [("id", "INT")] ["id"] 5 _ _ H5)) eq_refl).
  - refine (proj2 (proj2 (create_temporary_table_retry unreachable_respond constant_uuid
                            example_db "tmp" [("id", "INT")] ["id"] 0
                            (mk_world tt [] 0) (mk_world tt [] 0) eq_refl))
              _ _ _ eq_refl _).
    + lia.
    + intros e He. inversion He. discriminate.
Defined.

(** C3, as it is worded, fails on both sides.  An error that is no
    name collision, the full table of error 1114, is swallowed at each
    of five attempts when the driver raises it as [InternalError], and
    what the caller gets is the too-many-attempts exception.  A name
    collision at every attempt is not retried when the driver raises it
    as [OperationalError]: the first one propagates after one attempt. *)
Lemma retry_not_by_collision :
  (is_name_collision (mk_exn InternalError [PInt 1114; PStr "The table is full"])
   = false
   /\ create_temporary_table full_respond constant_uuid example_db "tmp"
        [("id", "INT")] ["id"] (mk_world tt [] 0)
      = (Raise (mk_exn Exception_ [PStr "Too many attempts to get temp table."]),
         mk_world tt
           (repeat (mk_statement
                      "CREATE TABLE  `tmp-01234567` ( `id` INT , PRIMARY KEY( `id` ))"
                      None) 5)
           5))
  /\ (is_name_collision (mk_exn OperationalError [PInt 1050; PStr "Table already exists"])
      = true
      /\ create_temporary_table operational_collision_respond constant_uuid example_db
           "tmp" [("id", "INT")] ["id"] (mk_world tt [] 0)
         = (Raise (mk_exn OperationalError [PInt 1050; PStr "Table already exists"]),
            mk_world tt
              [mk_statement
                 "CREATE TABLE  `tmp-01234567` ( `id` INT , PRIMARY KEY( `id` ))"
                 None]
              1)).
Proof. repeat split. Qed.

(** C1: on a table none of whose rows matches, the COUNT(1) query is
    answered with one row holding the count 0; [execute] returns 1, the
    size of that result set, and [has_record] returns [True]: it does
    not read the count. *)
Theorem has_record_true_on_zero_count :
  cursor_execute counting_respond "SELECT COUNT(1) FROM `jobs` WHERE `id` = %s"
    (Some [PInt 1]) (mk_world 0%Z [] 0)
  = (Return (mk_result 1 [[("COUNT(1)", PInt 0)]] 0),
     mk_world 0%Z
       [mk_statement "SELECT COUNT(1) FROM `jobs` WHERE `id` = %s" (Some [PInt 1])] 0)
  /\ count_value (mk_result 1 [[("COUNT(1)", PInt 0)]] 0) = Some (PInt 0)
  /\ has_record counting_respond (mk_Table "jobs" example_db) [("id", PInt 1)]
       (mk_world 0%Z [] 0)
     = (Return true,
        mk_world 0%Z
          [mk_statement "SELECT COUNT(1) FROM `jobs` WHERE `id` = %s" (Some [PInt 1])] 0).
Proof. repeat split. Qed.

(** * Further properties *)

(** ** Quoting of column names *)

(** X1: the text the program writes for a column name is read back as
    that name by the rule for backtick-delimited identifiers: the first
    unpaired backtick after the opening one is the last character, so a
    name cannot close its own quotes. *)
Theorem backtick_fmt_roundtrip (k : string) :
  unquote_ident (backtick_fmt k) = Some k.
Proof. rewrite backtick_fmt_quote. apply unquote_quote_ident. Qed.

(** X2: two column names written alike are the same name. *)
Theorem backtick_fmt_injective (k1 k2 : string) :
  backtick_fmt k1 = backtick_fmt k2 -> k1 = k2.
Proof. rewrite !backtick_fmt_quote. apply quote_ident_inj. Qed.

Lemma backtick_fmt_injective_witness :
  backtick_fmt "a`b" = backtick_fmt "a`b" /\ "a`b" = "a`b".
Proof.
  split; [reflexivity|].
  exact (backtick_fmt_injective "a`b" "a`b" eq_refl).
Defined.

(** ** The WHERE builder on any mapping *)

Lemma where_loop_terms_length (items : dict pyval) :
  List.length (fst (where_loop items)) = List.length items.
Proof.
  induction items as [|[k v] items IH]; [reflexivity|].
  rewrite where_loop_cons. cbn [fst]. rewrite length_app, IH.
  unfold where_step.
  destruct (isinstance_list v); [destruct (Nat.eqb (len v) 0)|]; reflexivity.
Qed.

Lemma where_loop_values (items : dict pyval) :
  snd (where_loop items)
  = filter (fun v => negb (isinstance_list v && Nat.eqb (len v) 0))
      (dict_values items).
Proof.
  induction items as [|[k v] items IH]; [reflexivity|].
  rewrite where_loop_cons. cbn [snd]. rewrite IH.
  unfold where_step, dict_values. cbn [map snd filter].
  destruct (isinstance_list v); [destruct (Nat.eqb (len v) 0)|]; reflexivity.
Qed.

(** X3: whatever the values, the WHERE builder makes one term per key,
    and its bound values are the values of the mapping, in order,
    without the empty lists. *)
Theorem make_where_statement_shape (items : dict pyval) :
  List.length (fst (where_loop items)) = List.length (dict_keys items)
  /\ fst (make_where_statement items) = join " AND " (fst (where_loop items))
  /\ snd (make_where_statement items)
     = filter (fun v => negb (isinstance_list v && Nat.eqb (len v) 0))
         (dict_values items).
Proof.
  rewrite make_where_statement_loop. cbn [fst snd].
  rewrite where_loop_terms_length, where_loop_values.
  unfold dict_keys. now rewrite length_map.
Qed.

Lemma concat_nonempty (sep : string) (c : ascii) (t : string) (ts : list string) :
  String.concat sep (String c t :: ts) <> "".
Proof. destruct ts; simpl; discriminate. Qed.

Lemma where_step_term (k : string) (v : pyval) :
  exists c t, fst (where_step ([], []) (k, v)) = [String c t].
Proof.
  unfold where_step, backtick_fmt, list_append.
  destruct (isinstance_list v); [destruct (Nat.eqb (len v) 0)|];
    cbn [fst app String.append]; eauto.
Qed.

(** X4: the predicate template is the empty string for the empty
    mapping only. *)
Theorem make_where_statement_empty_iff (items : dict pyval) :
  fst (make_where_statement items) = "" <-> items = [].
Proof.
  split.
  - destruct items as [|[k v] items]; [reflexivity|].
    rewrite make_where_statement_loop, where_loop_cons. cbn [fst].
    destruct (where_step_term k v) as [c [t ->]].
    intros H. exfalso. exact (concat_nonempty _ _ _ _ H).
  - intros ->. reflexivity.
Qed.

Lemma count_percent_app (a b : string) :
  count_percent (a ++ b) = count_percent a + count_percent b.
Proof.
  induction a as [|c a IH]; [reflexivity|].
  cbn [String.append count_percent]. rewrite IH. lia.
Qed.

Lemma count_percent_double_backticks (k : string) :
  count_percent (double_backticks k) = count_percent k.
Proof.
  induction k as [|c k IH]; [reflexivity|].
  cbn [double_backticks]. destruct (Ascii.eqb c "`") eqn:E.
  - apply Ascii.eqb_eq in E. subst c. cbn. exact IH.
  - cbn [count_percent]. now rewrite IH.
Qed.

(** A text without percent signs before another holds no placeholder
    and starts none. *)
Lemma count_placeholders_app_free (a b : string) :
  count_percent a = 0 -> count_placeholders (a ++ b) = count_placeholders b.
Proof.
  induction a as [|c a IH]; [reflexivity|].
  cbn [String.append count_percent count_placeholders].
  destruct (Ascii.eqb c "%"); [discriminate|].
  intros H. now rewrite IH.
Qed.

(** The term of one key without percent signs, followed by any text:
    as many placeholders and percent signs as values bound for the
    key. *)
Lemma where_step_counts (k : string) (v : pyval) :
  count_percent k = 0 ->
  exists term,
    fst (where_step ([], []) (k, v)) = [term]
    /\ count_percent term = List.length (snd (where_step ([], []) (k, v)))
    /\ forall rest,
        count_placeholders (term ++ rest)
        = List.length (snd (where_step ([], []) (k, v))) + count_placeholders rest.
Proof.
  intros Hk.
  assert (Hq : count_percent (String "`" (double_backticks k)) = 0).
  { cbn. now rewrite count_percent_double_backticks. }
  unfold where_step, list_append.
  destruct (isinstance_list v); [destruct (Nat.eqb (len v) 0)|];
    cbn [fst snd app List.length].
  - exists "FALSE". repeat split.
  - exists (backtick_fmt k ++ " IN %s"). split; [reflexivity|].
    rewrite backtick_fmt_quote. unfold quote_ident.
    change ("`" ++ double_backticks k ++ "`")
      with (String "`" (double_backticks k) ++ "`").
    split.
    + rewrite !count_percent_app, Hq. reflexivity.
    + intros rest. rewrite !append_assoc.
      rewrite count_placeholders_app_free by exact Hq. reflexivity.
  - exists (backtick_fmt k ++ " = %s"). split; [reflexivity|].
    rewrite backtick_fmt_quote. unfold quote_ident.
    change ("`" ++ double_backticks k ++ "`")
      with (String "`" (double_backticks k) ++ "`").
    split.
    + rewrite !count_percent_app, Hq. reflexivity.
    + intros rest. rewrite !append_assoc.
      rewrite count_placeholders_app_free by exact Hq. reflexivity.
Qed.

(** X5: when no key of the mapping holds a percent sign, the predicate
    template has exactly as many [%s] placeholders as there are bound
    values, and no percent sign besides those of the placeholders. *)
Theorem where_placeholders_bound (items : dict pyval) :
  (forall k, In k (dict_keys items) -> count_percent k = 0) ->
  count_placeholders (fst (make_where_statement items))
  = List.length (snd (make_where_statement items))
  /\ count_percent (fst (make_where_statement items))
     = List.length (snd (make_where_statement items)).
Proof.
  rewrite make_where_statement_loop. cbn [fst snd]. unfold join.
  induction items as [|[k v] items IH]; intros Hk; [split; reflexivity|].
  destruct IH as [IH1 IH2]; [intros k' Hin; apply Hk; now right|].
  destruct (where_step_counts k v (Hk k (or_introl eq_refl)))
    as [term [Hterm [Hpercent Hplace]]].
  rewrite where_loop_cons. cbn [fst snd]. rewrite Hterm, length_app.
  cbn [app String.concat].
  destruct (fst (where_loop items)) as [|term' terms] eqn:Hterms.
  - cbn [String.concat] in IH1, IH2. rewrite <- IH1.
    split; [|rewrite Hpercent; cbn in IH2; lia].
    rewrite <- (append_empty_r term) at 1. apply Hplace.
  - split.
    + rewrite Hplace, <- IH1. reflexivity.
    + rewrite !count_percent_app, Hpercent, <- IH2. reflexivity.
Qed.

Lemma where_placeholders_bound_witness :
  (forall k, In k (dict_keys [("id", PInt 1); ("na`me", PList [PStr "a"]); ("x", PList [])]) ->
             count_percent k = 0)
  /\ count_placeholders "`id` = %s AND `na``me` IN %s AND FALSE" = 2
  /\ count_percent "`id` = %s AND `na``me` IN %s AND FALSE" = 2.
Proof.
  assert (H : forall k,
             In k (dict_keys [("id", PInt 1); ("na`me", PList [PStr "a"]); ("x", PList [])]) ->
             count_percent k = 0).
  { simpl. intros k [E|[E|[E|[]]]]; subst k; reflexivity. }
  split; [exact H|].
  exact (where_placeholders_bound
           [("id", PInt 1); ("na`me", PList [PStr "a"]); ("x", PList [])] H).
Defined.

(** A key with a percent sign is written as it is: the template then
    holds a placeholder more than there are bound values. *)
Example where_placeholders_percent_key :
  make_where_statement [("a%sb", PInt 1)] = ("`a%sb` = %s", [PInt 1])
  /\ count_placeholders "`a%sb` = %s" = 2.
Proof. split; reflexivity. Qed.

(** ** Operations on any server *)

Section OperationProperties.

Context {Server : Type}.
Variable respond : statement -> Server -> outcome cursor_result * Server.
Variable uuid4_hex : nat -> string.

Lemma bind_execute_drawn {A} sql args (k : cursor_result -> A) (w : world Server) :
  drawn (snd (bind (cursor_execute respond sql args) (fun c => ret (k c)) w))
  = drawn w.
Proof.
  unfold bind. rewrite <- (cursor_execute_drawn respond sql args w).
  destruct (cursor_execute respond sql args w) as [[c|e] w']; reflexivity.
Qed.

Lemma bind_execute_return {A} sql args (k : cursor_result -> A)
    (w w' : world Server) reply :
  cursor_execute respond sql args w = (Return reply, w') ->
  bind (cursor_execute respond sql args) (fun c => ret (k c)) w
  = (Return (k reply), w').
Proof. intros H. unfold bind. now rewrite H. Qed.

Lemma bind_execute_raise {A} sql args (k : cursor_result -> A)
    (w : world Server) e :
  (forall stmt, fst (respond stmt (server w)) = Raise e) ->
  fst (bind (cursor_execute respond sql args) (fun c => ret (k c)) w) = Raise e.
Proof.
  intros H. unfold bind, cursor_execute.
  specialize (H (mk_statement sql args)).
  destruct (respond (mk_statement sql args) (server w)) as [r s].
  cbn [fst] in H. subst r. reflexivity.
Qed.

Lemma sent_length_append (w : world Server) (l : list statement) stmt :
  l = list_append (sent w) stmt -> List.length l = S (List.length (sent w)).
Proof. intros ->. unfold list_append. rewrite length_app. simpl. lia. Qed.

(** X6: [get_record] with an empty list of fields fails its assertion
    and sends nothing; otherwise it selects [*] when no fields are
    given, or the fields joined by commas, and when the statement is
    answered it returns all the rows of the answer. *)
Theorem get_record_spec (self : Table) (where_items : dict pyval)
    (select_fields : option (list string)) (w : world Server) :
  (select_fields = Some [] ->
     get_record respond self where_items select_fields w
     = (Raise (mk_exn AssertionError []), w))
  /\ (select_fields <> Some [] ->
      forall reply w',
        cursor_execute respond
          ("SELECT "
           ++ match select_fields with
              | Some fields => join "," fields
              | None => "*"
              end
           ++ " FROM `" ++ name self ++ "` WHERE "
           ++ fst (make_where_statement where_items))
          (Some (snd (make_where_statement where_items))) w
        = (Return reply, w') ->
        get_record respond self where_items select_fields w
        = (Return (rows reply), w')).
Proof.
  split.
  - intros ->. reflexivity.
  - intros Hne reply w' H. unfold get_record.
    assert (Hassert : match select_fields with
                      | None => true
                      | Some fields => negb (Nat.eqb (List.length fields) 0)
                      end = true).
    { destruct select_fields as [[|f fs]|]; [congruence | reflexivity | reflexivity]. }
    rewrite Hassert.
    destruct (make_where_statement where_items) as [where_template where_values].
    cbn [fst snd] in H. unfold py_assert.
    change (bind (ret tt) ?k w) with (k tt w). cbv beta.
    apply (bind_execute_return _ _ fetchall). exact H.
Qed.

Lemma map_const_repeat {A B} (b : B) (l : list A) :
  map (fun _ => b) l = repeat b (List.length l).
Proof. induction l as [|a l IH]; simpl; [reflexivity | now rewrite IH]. Qed.

(** X7: [new_record] sends an INSERT with the quoted keys of the
    mapping as columns, one [%s] per key, and the values of the mapping
    bound in the same order; when it is answered, the result is the
    [lastrowid] of the answer. *)
Theorem new_record_spec (self : Table) (items : dict pyval)
    (w w' : world Server) (reply : cursor_result) :
  cursor_execute respond
    ("INSERT INTO `" ++ name self ++ "` ("
     ++ join ", " (map quote_ident (dict_keys items))
     ++ ") VALUES (" ++ join ", " (repeat "%s" (List.length items)) ++ ")")
    (Some (dict_values items)) w
  = (Return reply, w') ->
  new_record respond self items w = (Return (lastrowid reply), w').
Proof.
  intros H. unfold new_record.
  apply (bind_execute_return _ _ lastrowid).
  rewrite new_record_sql_quoted. unfold wrap_ident.
  rewrite map_const_repeat.
  rewrite !append_assoc. exact H.
Qed.

(** X8: when the server fails every statement with [e], each operation
    that reaches the server raises [e] itself: none of them catches
    it. *)
Theorem operations_propagate (db : Database) (self : Table) (e : pyexn)
    (w : world Server) :
  (forall stmt, fst (respond stmt (server w)) = Raise e) ->
  (forall name, fst (has_table respond db name w) = Raise e)
  /\ (forall names, fst (drop_table respond db names w) = Raise e)
  /\ (forall name schema keys can_exist,
         (forall k, In k keys -> In k (dict_keys schema)) ->
         fst (create_table respond db name schema keys can_exist w) = Raise e)
  /\ (forall items, fst (new_record respond self items w) = Raise e)
  /\ (forall where_items kv set_items,
         fst (update_record respond self where_items (kv :: set_items) w) = Raise e)
  /\ (forall where_items, fst (get_record respond self where_items None w) = Raise e)
  /\ (forall where_items field fields,
         fst (get_record respond self where_items (Some (field :: fields)) w) = Raise e)
  /\ (forall where_items, fst (has_record respond self where_items w) = Raise e)
  /\ (forall where_items, fst (delete_record respond self where_items w) = Raise e).
Proof.
  intros H. repeat split; intros.
  - apply (bind_execute_raise _ _
             (fun c => match fetchone c with Some _ => true | None => false end)), H.
  - apply (bind_execute_raise _ _ (fun _ => tt)), H.
  - unfold create_table.
    rewrite (proj2 (all_keys_in_schema schema keys)) by assumption.
    apply (bind_execute_raise _ _ (fun _ => tt)), H.
  - apply (bind_execute_raise _ _ lastrowid), H.
  - rewrite update_record_runs. apply (bind_execute_raise _ _ (fun _ => tt)), H.
  - unfold get_record. destruct (make_where_statement where_items).
    apply (bind_execute_raise _ _ fetchall), H.
  - unfold get_record. destruct (make_where_statement where_items).
    apply (bind_execute_raise _ _ fetchall), H.
  - unfold has_record. destruct (make_where_statement where_items).
    apply (bind_execute_raise _ _ (fun c => (1 <=? rowcount c)%Z)), H.
  - unfold delete_record. destruct (make_where_statement where_items).
    apply (bind_execute_raise _ _ (fun _ => tt)), H.
Qed.

(** X9: whatever the server answers, [has_table], [drop_table],
    [new_record], [has_record] and [delete_record] send exactly one
    statement, and [create_table], [get_record] and [update_record] send
    at most one. *)
Theorem operations_send_one (db : Database) (self : Table) (w : world Server) :
  (forall name,
      List.length (sent (snd (has_table respond db name w)))
      = S (List.length (sent w)))
  /\ (forall names,
         List.length (sent (snd (drop_table respond db names w)))
         = S (List.length (sent w)))
  /\ (forall items,
         List.length (sent (snd (new_record respond self items w)))
         = S (List.length (sent w)))
  /\ (forall where_items,
         List.length (sent (snd (has_record respond self where_items w)))
         = S (List.length (sent w)))
  /\ (forall where_items,
         List.length (sent (snd (delete_record respond self where_items w)))
         = S (List.length (sent w)))
  /\ (forall name schema keys can_exist,
         List.length (sent (snd (create_table respond db name schema keys can_exist w)))
         <= S (List.length (sent w)))
  /\ (forall where_items select_fields,
         List.length (sent (snd (get_record respond self where_items select_fields w)))
         <= S (List.length (sent w)))
  /\ (forall where_items set_items,
         List.length (sent (snd (update_record respond self where_items set_items w)))
         <= S (List.length (sent w))).
Proof.
  repeat split; intros.
  - eapply sent_length_append.
    apply (bind_execute_sent respond _ _
             (fun c => match fetchone c with Some _ => true | None => false end)).
  - eapply sent_length_append. apply (bind_execute_sent respond _ _ (fun _ => tt)).
  - eapply sent_length_append. apply (bind_execute_sent respond _ _ lastrowid).
  - unfold has_record. destruct (make_where_statement where_items).
    eapply sent_length_append.
    apply (bind_execute_sent respond _ _ (fun c => (1 <=? rowcount c)%Z)).
  - unfold delete_record. destruct (make_where_statement where_items).
    eapply sent_length_append. apply (bind_execute_sent respond _ _ (fun _ => tt)).
  - unfold create_table. destruct (forallb (contains schema) keys).
    + apply Nat.eq_le_incl. eapply sent_length_append.
      apply (bind_execute_sent respond _ _ (fun _ => tt)).
    + cbn. lia.
  - unfold get_record.
    destruct (match select_fields with
              | None => true
              | Some fields => negb (Nat.eqb (List.length fields) 0)
              end).
    + destruct (make_where_statement where_items).
      apply Nat.eq_le_incl. eapply sent_length_append.
      apply (bind_execute_sent respond _ _ fetchall).
    + cbn. lia.
  - destruct set_items as [|kv set_items].
    + cbn. lia.
    + rewrite update_record_runs. apply Nat.eq_le_incl. eapply sent_length_append.
      apply (bind_execute_sent respond _ _ (fun _ => tt)).
Qed.

End OperationProperties.

(** ** Table construction and temporary tables on any server *)

Section ConstructionProperties.

Context {Server : Type}.
Variable respond : statement -> Server -> outcome cursor_result * Server.
Variable uuid4_hex : nat -> string.

Lemma Table_init_return (db : Database) (name : string) (schema : dict string)
    (keys : list string) (can_exist : bool) (w w' : world Server) (t : Table) :
  Table_init respond db name schema keys can_exist w = (Return t, w') ->
  t = mk_Table name db
  /\ forallb (contains schema) keys = true
  /\ exists reply,
      cursor_execute respond (create_table_sql name schema keys can_exist) None w
      = (Return reply, w').
Proof.
  unfold Table_init, create_table, bind, py_assert.
  destruct (forallb (contains schema) keys); cbn [ret raise]; [|discriminate].
  destruct (cursor_execute respond _ None w) as [[reply|e] w1]; [|discriminate].
  intros H. inversion H. subst. eauto.
Qed.

Lemma Table_init_effect (db : Database) (name : string) (schema : dict string)
    (keys : list string) (can_exist : bool) (w w' : world Server) (t : Table) :
  Table_init respond db name schema keys can_exist w = (Return t, w') ->
  t = mk_Table name db
  /\ (forall k, In k keys -> In k (dict_keys schema))
  /\ sent w' = list_append (sent w)
                 (mk_statement (create_table_sql name schema keys can_exist) None)
  /\ drawn w' = drawn w
  /\ exists reply,
      respond (mk_statement (create_table_sql name schema keys can_exist) None)
        (server w)
      = (Return reply, server w').
Proof.
  intros H. destruct (Table_init_return _ _ _ _ _ _ _ _ H) as [Ht [Hk [reply Hr]]].
  split; [exact Ht|]. split; [now apply all_keys_in_schema|].
  pose proof (cursor_execute_sent respond
                (create_table_sql name schema keys can_exist) None w) as Hs.
  pose proof (cursor_execute_drawn respond
                (create_table_sql name schema keys can_exist) None w) as Hd.
  rewrite Hr in Hs, Hd. cbn [snd] in Hs, Hd.
  split; [exact Hs|]. split; [exact Hd|].
  exists reply. unfold cursor_execute in Hr.
  destruct (respond _ (server w)) as [r s]. inversion Hr. reflexivity.
Qed.

(** X10: a [Table] is only ever built after the server has accepted
    its CREATE TABLE statement: when the constructor returns, the table
    carries the name and the database it was given, every primary-key
    column is a key of the schema, and that one statement has been
    sent and answered. *)
Theorem Table_init_success (db : Database) (name : string) (schema : dict string)
    (keys : list string) (can_exist : bool) (w w' : world Server) (t : Table) :
  Table_init respond db name schema keys can_exist w = (Return t, w') ->
  t = mk_Table name db
  /\ (forall k, In k keys -> In k (dict_keys schema))
  /\ sent w' = list_append (sent w)
                 (mk_statement (create_table_sql name schema keys can_exist) None)
  /\ drawn w' = drawn w
  /\ exists reply,
      respond (mk_statement (create_table_sql name schema keys can_exist) None)
        (server w)
      = (Return reply, server w').
Proof. apply Table_init_effect. Qed.

Lemma attempt_unfold (self : Database) (root_name : string) (schema : dict string)
    (keys : list string) (w : world Server) :
  temporary_table_attempt respond uuid4_hex self root_name schema keys w
  = Table_init respond self
      (root_name ++ "-" ++ String.substring 0 8 (uuid4_hex (drawn w)))
      schema keys false
      (mk_world (server w) (sent w) (S (drawn w))).
Proof. reflexivity. Qed.

(** One attempt, however it ends, draws one identifier and sends at
    most one statement after those already sent. *)
Lemma attempt_effect (self : Database) (root_name : string) (schema : dict string)
    (keys : list string) (w : world Server) :
  let w' := snd (temporary_table_attempt respond uuid4_hex self root_name schema keys w) in
  drawn w' = S (drawn w)
  /\ exists extra, sent w' = (sent w ++ extra)%list /\ List.length extra <= 1.
Proof.
  rewrite attempt_unfold. unfold Table_init, create_table, bind, py_assert.
  destruct (forallb (contains schema) keys); cbn [ret raise].
  - set (w1 := mk_world (server w) (sent w) (S (drawn w))).
    set (text := create_table_sql _ schema keys false).
    pose proof (cursor_execute_sent respond text None w1) as Hs.
    pose proof (cursor_execute_drawn respond text None w1) as Hd.
    destruct (cursor_execute respond text None w1) as [[c|e] w2];
      cbn [snd] in *; (split; [exact Hd|]);
      exists [mk_statement text None]; split; [exact Hs | simpl; lia | exact Hs | simpl; lia].
  - cbn [snd drawn sent]. split; [reflexivity|].
    exists []. split; [now rewrite app_nil_r | simpl; lia].
Qed.

Lemma loop_effect (self : Database) (root_name : string) (schema : dict string)
    (keys : list string) (range : list nat) :
  forall w : world Server,
    let w' := snd (temporary_table_loop respond uuid4_hex self root_name schema keys
                     range w) in
    drawn w <= drawn w' <= drawn w + List.length range
    /\ exists extra,
        sent w' = (sent w ++ extra)%list /\ List.length extra <= List.length range.
Proof.
  induction range as [|i range IH]; intros w; cbn [temporary_table_loop].
  - cbn. split; [lia|]. exists []. split; [now rewrite app_nil_r | simpl; lia].
  - destruct (attempt_effect self root_name schema keys w) as [Hd [x [Hs Hx]]].
    unfold try_except.
    destruct (temporary_table_attempt respond uuid4_hex self root_name schema keys w)
      as [[t|e] w1]; cbn [snd] in Hd, Hs.
    + cbn [snd List.length]. split; [lia|]. exists x. split; [exact Hs | lia].
    + destruct (issubclass (exn_type e) InternalError).
      * destruct (IH w1) as [Hd1 [y [Hs1 Hy]]]. cbv zeta in *.
        cbn [List.length]. split; [lia|].
        exists (x ++ y)%list. rewrite Hs1, Hs, app_assoc, length_app.
        split; [reflexivity | lia].
      * cbn [snd List.length]. split; [lia|]. exists x. split; [exact Hs | lia].
Qed.

(** X11: whatever the server does, [create_temporary_table] draws
    between one and five identifiers and sends at most five statements,
    after those already sent. *)
Theorem create_temporary_table_bounded (self : Database) (root_name : string)
    (schema : dict string) (keys : list string) (w : world Server) :
  let w' := snd (create_temporary_table respond uuid4_hex self root_name schema keys w) in
  drawn w + 1 <= drawn w' <= drawn w + 5
  /\ exists extra, sent w' = (sent w ++ extra)%list /\ List.length extra <= 5.
Proof.
  unfold create_temporary_table. cbv zeta.
  destruct (loop_effect self root_name schema keys (seq 0 5) w) as [Hd He].
  split; [|exact He]. split; [|exact (proj2 Hd)].
  change (seq 0 5) with (0 :: seq 1 4). cbn [temporary_table_loop].
  destruct (attempt_effect self root_name schema keys w) as [Hd1 _].
  unfold try_except.
  destruct (temporary_table_attempt respond uuid4_hex self root_name schema keys w)
    as [[t|e] w1]; cbn [snd] in Hd1; [cbn [snd]; lia|].
  destruct (issubclass (exn_type e) InternalError); [|cbn [snd]; lia].
  pose proof (proj1 (loop_effect self root_name schema keys (seq 1 4) w1)). lia.
Qed.

Lemma loop_return (self : Database) (root_name : string) (schema : dict string)
    (keys : list string) (range : list nat) :
  forall (w w' : world Server) (t : Table),
    temporary_table_loop respond uuid4_hex self root_name schema keys range w
    = (Return t, w') ->
    exists n w1,
      n < List.length range
      /\ collisions respond uuid4_hex self root_name schema keys n w = Some w1
      /\ temporary_table_attempt respond uuid4_hex self root_name schema keys w1
         = (Return t, w').
Proof.
  induction range as [|i range IH]; intros w w' t; cbn [temporary_table_loop].
  - discriminate.
  - unfold try_except.
    destruct (temporary_table_attempt respond uuid4_hex self root_name schema keys w)
      as [[t0|e] w1] eqn:Ha.
    + intros H. inversion H. subst. exists 0, w.
      split; [simpl; lia|]. split; [reflexivity | exact Ha].
    + destruct (issubclass (exn_type e) InternalError) eqn:Hc; [|discriminate].
      intros H. destruct (IH _ _ _ H) as [n [w2 [Hn [Hcol Hatt]]]].
      exists (S n), w2. split; [simpl; lia|]. split; [|exact Hatt].
      cbn [collisions]. now rewrite Ha, Hc.
Qed.

(** X12: when [create_temporary_table] returns a table, fewer than
    five attempts failed before; the table is named by the root name, a
    dash and the first eight characters of the identifier drawn last;
    the last statement sent is its CREATE TABLE without IF NOT EXISTS;
    and one statement was sent and one identifier drawn per attempt. *)
Theorem create_temporary_table_success (self : Database) (root_name : string)
    (schema : dict string) (keys : list string) (w w' : world Server) (t : Table) :
  create_temporary_table respond uuid4_hex self root_name schema keys w
  = (Return t, w') ->
  exists n,
    n < 5
    /\ t = mk_Table
             (root_name ++ "-" ++ String.substring 0 8 (uuid4_hex (drawn w + n)))
             self
    /\ (forall k, In k keys -> In k (dict_keys schema))
    /\ drawn w' = drawn w + n + 1
    /\ List.length (sent w') = List.length (sent w) + n + 1
    /\ exists earlier,
        sent w' = list_append earlier
                    (mk_statement (create_table_sql (name t) schema keys false) None).
Proof.
  intros H. unfold create_temporary_table in H.
  destruct (loop_return _ _ _ _ _ _ _ _ H) as [n [w1 [Hn [Hcol Hatt]]]].
  rewrite length_seq in Hn.
  destruct (collisions_effect _ _ _ _ _ _ _ _ _ Hcol) as [Hs1 Hd1].
  rewrite attempt_unfold in Hatt.
  destruct (Table_init_effect _ _ _ _ _ _ _ _ Hatt) as [Ht [Hk [Hs [Hd _]]]].
  cbn [sent drawn] in Hs, Hd.
  exists n. rewrite Hd1 in Ht.
  split; [exact Hn|]. split; [exact Ht|]. split; [exact Hk|].
  split; [lia|]. split.
  - rewrite Hs. unfold list_append. rewrite length_app. simpl. lia.
  - exists (sent w1). rewrite Hs, Ht, Hd1. reflexivity.
Qed.

(** X13: with a primary-key column that is not a key of the schema,
    [create_temporary_table] fails the assertion of [create_table] at
    its first attempt: one identifier is drawn, nothing is sent, and the
    loop does not try again. *)
Theorem create_temporary_table_bad_keys (self : Database) (root_name : string)
    (schema : dict string) (keys : list string) (w : world Server) :
  (exists k, In k keys /\ ~ In k (dict_keys schema)) ->
  create_temporary_table respond uuid4_hex self root_name schema keys w
  = (Raise (mk_exn AssertionError []),
     mk_world (server w) (sent w) (S (drawn w))).
Proof.
  intros Hbad. unfold create_temporary_table.
  change (seq 0 5) with (0 :: seq 1 4). cbn [temporary_table_loop].
  apply try_except_propagates; [|reflexivity].
  rewrite attempt_unfold. unfold Table_init, create_table, bind.
  now rewrite (some_key_not_in_schema schema keys Hbad).
Qed.

End ConstructionProperties.

(** ** The further properties on the example servers *)

Lemma get_record_spec_witness :
  get_record table_respond example_table [("id", PInt 1)] (Some [])
    (mk_world [[("id", PInt 1); ("state", PStr "Ready")]] [] 0)
  = (Raise (mk_exn AssertionError []),
     mk_world [[("id", PInt 1); ("state", PStr "Ready")]] [] 0)
  /\ get_record table_respond example_table [("id", PInt 1)] (Some ["id"; "state"])
       (mk_world [[("id", PInt 1); ("state", PStr "Ready")]] [] 0)
     = (Return [[("id", PInt 1); ("state", PStr "Ready")]],
        mk_world [[("id", PInt 1); ("state", PStr "Ready")]]
          [mk_statement "SELECT id,state FROM `jobs` WHERE `id` = %s" (Some [PInt 1])]
          0).
Proof.
  split.
  - exact (proj1 (get_record_spec table_respond example_table [("id", PInt 1)]
                    (Some []) _) eq_refl).
  - refine (proj2 (get_record_spec table_respond example_table [("id", PInt 1)]
                     (Some ["id"; "state"]) _) _ _ _ eq_refl).
    discriminate.
Defined.

Lemma new_record_spec_witness :
  cursor_execute autoincrement_respond
    "INSERT INTO `jobs` (`id`, `na``me`) VALUES (%s, %s)"
    (Some [PInt 1; PStr "a"]) (mk_world 7%Z [] 0)
  = (Return (mk_result 1 [] 7),
     mk_world 8%Z
       [mk_statement "INSERT INTO `jobs` (`id`, `na``me`) VALUES (%s, %s)"
          (Some [PInt 1; PStr "a"])] 0)
  /\ new_record autoincrement_respond example_table
       [("id", PInt 1); ("na`me", PStr "a")] (mk_world 7%Z [] 0)
     = (Return 7%Z,
        mk_world 8%Z
          [mk_statement "INSERT INTO `jobs` (`id`, `na``me`) VALUES (%s, %s)"
             (Some [PInt 1; PStr "a"])] 0).
Proof.
  split; [reflexivity|].
  exact (new_record_spec autoincrement_respond example_table
           [("id", PInt 1); ("na`me", PStr "a")] (mk_world 7%Z [] 0) _ _ eq_refl).
Defined.

Lemma operations_propagate_witness :
  (forall stmt, fst (unreachable_respond stmt (server (mk_world tt [] 0)))
                = Raise lost_connection)
  /\ fst (has_table unreachable_respond example_db "jobs" (mk_world tt [] 0))
     = Raise lost_connection
  /\ fst (delete_record unreachable_respond example_table [("id", PInt 1)]
            (mk_world tt [] 0))
     = Raise lost_connection.
Proof.
  assert (H : forall stmt, fst (unreachable_respond stmt (server (mk_world tt [] 0)))
                           = Raise lost_connection) by reflexivity.
  pose proof (operations_propagate unreachable_respond example_db example_table
                lost_connection (mk_world tt [] 0) H) as P.
  split; [exact H|]. split.
  - exact (proj1 P "jobs").
  - exact (proj2 (proj2 (proj2 (proj2 (proj2 (proj2 (proj2 (proj2 P)))))))
             [("id", PInt 1)]).
Defined.

Lemma Table_init_success_witness :
  Table_init autoincrement_respond example_db "jobs" [("id", "INT")] ["id"] true
    (mk_world 1%Z [] 0)
  = (Return example_table,
     mk_world 2%Z
       [mk_statement "CREATE TABLE IF NOT EXISTS `jobs` ( `id` INT , PRIMARY KEY( `id` ))"
          None] 0)
  /\ example_table = mk_Table "jobs" example_db
  /\ (forall k, In k ["id"] -> In k (dict_keys [("id", "INT")])).
Proof.
  assert (H : Table_init autoincrement_respond example_db "jobs" [("id", "INT")]
                ["id"] true (mk_world 1%Z [] 0)
              = (Return example_table,
                 mk_world 2%Z
                   [mk_statement
                      "CREATE TABLE IF NOT EXISTS `jobs` ( `id` INT , PRIMARY KEY( `id` ))"
                      None] 0)) by reflexivity.
  pose proof (Table_init_success autoincrement_respond _ _ _ _ _ _ _ _ H) as P.
  split; [exact H|]. split; [exact (proj1 P) | exact (proj1 (proj2 P))].
Defined.

Lemma create_temporary_table_success_witness :
  create_temporary_table autoincrement_respond constant_uuid example_db "tmp"
    [("id", "INT")] ["id"] (mk_world 1%Z [] 0)
  = (Return (mk_Table "tmp-01234567" example_db),
     mk_world 2%Z
       [mk_statement "CREATE TABLE  `tmp-01234567` ( `id` INT , PRIMARY KEY( `id` ))"
          None] 1)
  /\ exists n,
      n < 5
      /\ mk_Table "tmp-01234567" example_db
         = mk_Table ("tmp" ++ "-" ++ String.substring 0 8 (constant_uuid (0 + n)))
             example_db.
Proof.
  assert (H : create_temporary_table autoincrement_respond constant_uuid example_db
                "tmp" [("id", "INT")] ["id"] (mk_world 1%Z [] 0)
              = (Return (mk_Table "tmp-01234567" example_db),
                 mk_world 2%Z
                   [mk_statement
                      "CREATE TABLE  `tmp-01234567` ( `id` INT , PRIMARY KEY( `id` ))"
                      None] 1)) by reflexivity.
  split; [exact H|].
  destruct (create_temporary_table_success autoincrement_respond constant_uuid
              _ _ _ _ _ _ _ H) as [n [Hn [Ht _]]].
  exists n. split; [exact Hn | exact Ht].
Defined.

Lemma create_temporary_table_bad_keys_witness :
  (exists k, In k ["nope"] /\ ~ In k (dict_keys [("id", "INT")]))
  /\ create_temporary_table autoincrement_respond constant_uuid example_db "tmp"
       [("id", "INT")] ["nope"] (mk_world 1%Z [] 0)
     = (Raise (mk_exn AssertionError []), mk_world 1%Z [] 1).
Proof.
  assert (Hbad : exists k, In k ["nope"] /\ ~ In k (dict_keys [("id", "INT")])).
  { exists "nope". split; [now left|]. simpl. intros [H|[]]. discriminate H. }
  split; [exact Hbad|].
  exact (create_temporary_table_bad_keys autoincrement_respond constant_uuid example_db
           "tmp" [("id", "INT")] ["nope"] (mk_world 1%Z [] 0) Hbad).
Defined.
